(** * DLWP: the "Train on Azure" notebook

    A shallow embedding of [Azure/Train on Azure.ipynb].  The notebook is a
    linear sequence of code cells, each a handful of calls into the AzureML
    client library.  The cells are modelled as programs of a small state and
    exception monad.  The state holds the process environment, the notebook's
    global variables, the compute targets registered in the workspace, the
    text printed so far and the log of requests sent to the service.  What
    the service answers is not part of the notebook: it is taken as a
    [Provider], a record of answer functions. *)

From Stdlib Require Import ZArith List Ascii String.
From stdpp Require Import base option list gmap strings pretty.

Local Open Scope Z_scope.
Local Open Scope string_scope.

(** ** Python values read from the environment *)

(** [os.environ.get] returns a [str] when the variable is set and the default
    object otherwise; the defaults of the notebook are strings, integers and
    (for the one-argument call) [None]. *)
Inductive pyval : Type :=
| PyNone
| PyInt (n : Z)
| PyStr (s : string).

#[global] Instance pyval_eq_dec : EqDecision pyval.
Proof. solve_decision. Defined.

(** [os.environ.get(key, default)] *)
Definition os_environ_get (environ : gmap string string)
    (key : string) (default : pyval) : pyval :=
  match environ !! key with
  | Some s => PyStr s
  | None => default
  end.

(** A call site of [os.environ.get]: the variable read and the second
    argument when the source writes one. *)
Record env_read : Type := EnvRead {
  er_key : string;
  er_fallback : option pyval
}.

(** The default a call site ends up with: the written one, or [None], the
    default of the parameter [default] of [os.environ.get]. *)
Definition er_default (r : env_read) : pyval :=
  match er_fallback r with
  | Some d => d
  | None => PyNone
  end.

Definition read_env (environ : gmap string string) (r : env_read) : pyval :=
  os_environ_get environ (er_key r) (er_default r).

(** The five reads of the notebook, as written. *)
Definition subscription_id_read : env_read :=
  EnvRead "AZURE_SUBSCRIPTION_ID" None.
Definition compute_name_read : env_read :=
  EnvRead "AML_COMPUTE_CLUSTER_NAME" (Some (PyStr "dlwp-compute-1")).
Definition compute_min_nodes_read : env_read :=
  EnvRead "AML_COMPUTE_CLUSTER_MIN_NODES" (Some (PyInt 0)).
Definition compute_max_nodes_read : env_read :=
  EnvRead "AML_COMPUTE_CLUSTER_MAX_NODES" (Some (PyInt 2)).
Definition vm_size_read : env_read :=
  EnvRead "AML_COMPUTE_CLUSTER_SKU" (Some (PyStr "STANDARD_NV6")).

Definition cluster_reads : list env_read :=
  [compute_name_read; compute_min_nodes_read; compute_max_nodes_read;
   vm_size_read].

Definition consumed_reads : list env_read :=
  subscription_id_read :: cluster_reads.

(** Python's type of a value, as far as the notebook's values go. *)
Inductive pytype : Type := NoneType | IntType | StrType.

Definition type_of (v : pyval) : pytype :=
  match v with
  | PyNone => NoneType
  | PyInt _ => IntType
  | PyStr _ => StrType
  end.

(** ['%s' % v] *)
Definition format_s (v : pyval) : string :=
  match v with
  | PyNone => "None"
  | PyInt n => pretty n
  | PyStr s => s
  end.

(** ** Handles of the client library *)

Record Workspace : Type := MkWorkspace {
  ws_name : string;
  ws_subscription_id : pyval;
  ws_resource_group : string
}.

(** The class of a compute target object: [AmlCompute], or another class,
    given by its name. *)
Inductive ComputeClass : Type :=
| AmlCompute
| OtherCompute (cls : string).

#[global] Instance ComputeClass_eq_dec : EqDecision ComputeClass.
Proof. solve_decision. Defined.

Record ComputeTarget : Type := MkComputeTarget {
  ct_class : ComputeClass;
  ct_name : string
}.

(** [type(c) is AmlCompute] *)
Definition type_is_AmlCompute (c : ComputeTarget) : bool :=
  bool_decide (ct_class c = AmlCompute).

(** [bool(c)]: a compute target is a plain object, hence true. *)
Definition truthy (c : ComputeTarget) : bool := true.

(** [AmlCompute.provisioning_configuration(vm_size=, min_nodes=, max_nodes=)] *)
Record ProvisioningConfiguration : Type := provisioning_configuration {
  pc_vm_size : pyval;
  pc_min_nodes : pyval;
  pc_max_nodes : pyval
}.

Record Datastore : Type := MkDatastore {
  datastore_type : string;
  account_name : string;
  container_name : string
}.

(** [ds.path(p)] and [.as_mount()] build a reference to a folder of the
    datastore; nothing is sent to the service. *)
Inductive DataMode : Type := ModeMount | ModeDownload | ModeUpload.

Record DataReference : Type := MkDataReference {
  dr_datastore : Datastore;
  dr_path_on_datastore : string;
  dr_mode : DataMode
}.

Definition path (d : Datastore) (p : string) : DataReference :=
  MkDataReference d p ModeMount.

Definition as_mount (r : DataReference) : DataReference :=
  MkDataReference (dr_datastore r) (dr_path_on_datastore r) ModeMount.

(** A value of the [script_params] dictionary. *)
Inductive ParamValue : Type :=
| PMount (r : DataReference)
| PText (s : string).

Record Experiment : Type := MkExperiment {
  exp_workspace : Workspace;
  exp_name : string
}.

(** The [TensorFlow] estimator: the job descriptor.  [script_params] is a
    dict literal; it is kept as the list of its items in source order. *)
Record TensorFlow : Type := MkTensorFlow {
  source_directory : string;
  script_params : list (string * ParamValue);
  compute_target : ComputeTarget;
  entry_script : string;
  conda_packages : list string;
  pip_packages : list string;
  use_gpu : bool
}.

Record Run : Type := MkRun {
  run_experiment : string;
  run_id : string
}.

(** What the service reports at the end of [wait_for_completion]. *)
Record WaitReport : Type := MkWaitReport {
  wr_min_nodes_reached : bool;
  wr_timeout_reached : bool;
  wr_text : string
}.

(** ** Requests sent to the service *)

Inductive Request : Type :=
| WorkspaceGet (name : string) (subscription_id : pyval)
    (resource_group : string)
| ComputeTargetCreate (ws : Workspace) (name : pyval)
    (config : ProvisioningConfiguration)
| WaitForCompletion (target : ComputeTarget) (show_output : bool)
    (min_node_count : pyval) (timeout_in_minutes : Z)
| GetDefaultDatastore (ws : Workspace)
| DatastoreUpload (ds : Datastore) (src_dir target_path : string)
    (overwrite show_progress : bool)
| ExperimentGet (ws : Workspace) (name : string)
| ExperimentSubmit (exp : Experiment) (config : TensorFlow)
| RunCancel (run : Run).

(** ** Exceptions and results *)

Inductive exn : Type :=
| NameError (name : string)
| KeyError (key : pyval)
| ServiceError (msg : string).

Inductive Res (A : Type) : Type :=
| Ok (a : A)
| Raise (e : exn).
Arguments Ok {A} a.
Arguments Raise {A} e.

(** The answers of the service, one function per kind of request. *)
Record Provider : Type := MkProvider {
  answer_workspace_get : string -> pyval -> string -> Res Workspace;
  answer_create :
    Workspace -> pyval -> ProvisioningConfiguration -> Res ComputeTarget;
  answer_wait : ComputeTarget -> pyval -> Z -> Res WaitReport;
  answer_default_datastore : Workspace -> Res Datastore;
  answer_experiment : Workspace -> string -> Res Experiment;
  answer_submit : Experiment -> TensorFlow -> Res Run;
  answer_cancel : Run -> Res unit
}.

(** ** The notebook's global variables *)

Module Globals.
(** One field per global name the cells assign; [None] is "not defined". *)
Record t : Type := Mk {
  ws : option Workspace;
  compute_name : option pyval;
  compute_min_nodes : option pyval;
  compute_max_nodes : option pyval;
  vm_size : option pyval;
  compute_target : option ComputeTarget;
  provisioning_config : option ProvisioningConfiguration;
  ds : option Datastore;
  experiment_name : option string;
  exp : option Experiment;
  script_params : option (list (string * ParamValue));
  tf_est : option TensorFlow;
  run : option Run
}.

Definition empty : t :=
  Mk None None None None None None None None None None None None None.

Definition set_ws (x : Workspace) (g : t) : t :=
  Mk (Some x) (compute_name g) (compute_min_nodes g) (compute_max_nodes g)
     (vm_size g) (compute_target g) (provisioning_config g) (ds g)
     (experiment_name g) (exp g) (script_params g) (tf_est g) (run g).
Definition set_compute_name (x : pyval) (g : t) : t :=
  Mk (ws g) (Some x) (compute_min_nodes g) (compute_max_nodes g)
     (vm_size g) (compute_target g) (provisioning_config g) (ds g)
     (experiment_name g) (exp g) (script_params g) (tf_est g) (run g).
Definition set_compute_min_nodes (x : pyval) (g : t) : t :=
  Mk (ws g) (compute_name g) (Some x) (compute_max_nodes g)
     (vm_size g) (compute_target g) (provisioning_config g) (ds g)
     (experiment_name g) (exp g) (script_params g) (tf_est g) (run g).
Definition set_compute_max_nodes (x : pyval) (g : t) : t :=
  Mk (ws g) (compute_name g) (compute_min_nodes g) (Some x)
     (vm_size g) (compute_target g) (provisioning_config g) (ds g)
     (experiment_name g) (exp g) (script_params g) (tf_est g) (run g).
Definition set_vm_size (x : pyval) (g : t) : t :=
  Mk (ws g) (compute_name g) (compute_min_nodes g) (compute_max_nodes g)
     (Some x) (compute_target g) (provisioning_config g) (ds g)
     (experiment_name g) (exp g) (script_params g) (tf_est g) (run g).
Definition set_compute_target (x : ComputeTarget) (g : t) : t :=
  Mk (ws g) (compute_name g) (compute_min_nodes g) (compute_max_nodes g)
     (vm_size g) (Some x) (provisioning_config g) (ds g)
     (experiment_name g) (exp g) (script_params g) (tf_est g) (run g).
Definition set_provisioning_config (x : ProvisioningConfiguration) (g : t)
    : t :=
  Mk (ws g) (compute_name g) (compute_min_nodes g) (compute_max_nodes g)
     (vm_size g) (compute_target g) (Some x) (ds g)
     (experiment_name g) (exp g) (script_params g) (tf_est g) (run g).
Definition set_ds (x : Datastore) (g : t) : t :=
  Mk (ws g) (compute_name g) (compute_min_nodes g) (compute_max_nodes g)
     (vm_size g) (compute_target g) (provisioning_config g) (Some x)
     (experiment_name g) (exp g) (script_params g) (tf_est g) (run g).
Definition set_experiment_name (x : string) (g : t) : t :=
  Mk (ws g) (compute_name g) (compute_min_nodes g) (compute_max_nodes g)
     (vm_size g) (compute_target g) (provisioning_config g) (ds g)
     (Some x) (exp g) (script_params g) (tf_est g) (run g).
Definition set_exp (x : Experiment) (g : t) : t :=
  Mk (ws g) (compute_name g) (compute_min_nodes g) (compute_max_nodes g)
     (vm_size g) (compute_target g) (provisioning_config g) (ds g)
     (experiment_name g) (Some x) (script_params g) (tf_est g) (run g).
Definition set_script_params (x : list (string * ParamValue)) (g : t) : t :=
  Mk (ws g) (compute_name g) (compute_min_nodes g) (compute_max_nodes g)
     (vm_size g) (compute_target g) (provisioning_config g) (ds g)
     (experiment_name g) (exp g) (Some x) (tf_est g) (run g).
Definition set_tf_est (x : TensorFlow) (g : t) : t :=
  Mk (ws g) (compute_name g) (compute_min_nodes g) (compute_max_nodes g)
     (vm_size g) (compute_target g) (provisioning_config g) (ds g)
     (experiment_name g) (exp g) (script_params g) (Some x) (run g).
Definition set_run (x : Run) (g : t) : t :=
  Mk (ws g) (compute_name g) (compute_min_nodes g) (compute_max_nodes g)
     (vm_size g) (compute_target g) (provisioning_config g) (ds g)
     (experiment_name g) (exp g) (script_params g) (tf_est g) (Some x).
End Globals.

(** ** State of an execution *)

Record State : Type := MkState {
  environ : gmap string string;                 (* os.environ *)
  cwd : string;                                 (* os.getcwd() *)
  compute_targets : gmap string ComputeTarget;  (* ws.compute_targets *)
  globals : Globals.t;
  stdout : list string;                         (* printed lines *)
  requests : list Request                       (* oldest first *)
}.

Definition with_globals (f : Globals.t -> Globals.t) (s : State) : State :=
  MkState (environ s) (cwd s) (compute_targets s) (f (globals s))
          (stdout s) (requests s).
Definition with_stdout (line : string) (s : State) : State :=
  MkState (environ s) (cwd s) (compute_targets s) (globals s)
          (stdout s ++ [line]) (requests s).
Definition with_request (r : Request) (s : State) : State :=
  MkState (environ s) (cwd s) (compute_targets s) (globals s)
          (stdout s) (requests s ++ [r]).
Definition with_compute_target (name : pyval) (c : ComputeTarget)
    (s : State) : State :=
  match name with
  | PyStr k =>
      MkState (environ s) (cwd s) (<[k := c]> (compute_targets s))
              (globals s) (stdout s) (requests s)
  | _ => s
  end.

(** ** The monad of the cells *)

Definition M (A : Type) : Type := State -> Res A * State.

Definition ret {A} (a : A) : M A := fun s => (Ok a, s).

Definition bind {A B} (m : M A) (k : A -> M B) : M B :=
  fun s =>
    match m s with
    | (Ok a, s') => k a s'
    | (Raise e, s') => (Raise e, s')
    end.

Notation "'do' x <- m ; k" := (bind m (fun x => k))
  (at level 10, x name, m at level 100, k at level 200).
Notation "'exec' m ; k" := (bind m (fun _ => k))
  (at level 10, m at level 100, k at level 200).

Definition lift {A} (r : Res A) : M A := fun s => (r, s).

Definition getenv (r : env_read) : M pyval :=
  fun s => (Ok (read_env (environ s) r), s).

Definition getcwd : M string := fun s => (Ok (cwd s), s).

(** Reading a global name; a name never assigned raises [NameError]. *)
Definition global {A} (name : string) (field : Globals.t -> option A) : M A :=
  fun s =>
    match field (globals s) with
    | Some a => (Ok a, s)
    | None => (Raise (NameError name), s)
    end.

Definition assign (set : Globals.t -> Globals.t) : M unit :=
  fun s => (Ok tt, with_globals set s).

Definition print (line : string) : M unit :=
  fun s => (Ok tt, with_stdout line s).

(** Send a request: it is logged, then the answer returns or raises. *)
Definition send {A} (r : Request) (answer : Res A) : M A :=
  fun s => (answer, with_request r s).

(** ** Library functions used by the cells *)

(** [k in d] and [d[k]] for the dictionary of compute targets, whose keys
    are strings. *)
Definition contains (d : gmap string ComputeTarget) (k : pyval) : bool :=
  match k with
  | PyStr name =>
      match d !! name with
      | Some _ => true
      | None => false
      end
  | _ => false
  end.

Definition getitem (d : gmap string ComputeTarget) (k : pyval)
    : Res ComputeTarget :=
  match k with
  | PyStr name =>
      match d !! name with
      | Some c => Ok c
      | None => Raise (KeyError k)
      end
  | _ => Raise (KeyError k)
  end.

(** [os.path.join(a, b)] and [os.pardir] (posixpath). *)
Definition starts_with_sep (b : string) : bool :=
  match b with
  | String c _ => Ascii.eqb c "/"%char
  | EmptyString => false
  end.

Fixpoint ends_with_sep (a : string) : bool :=
  match a with
  | EmptyString => false
  | String c EmptyString => Ascii.eqb c "/"%char
  | String _ rest => ends_with_sep rest
  end.

Definition os_path_join (a b : string) : string :=
  if starts_with_sep b then b
  else if bool_decide (a = "") || ends_with_sep a then a ++ b
  else a ++ "/" ++ b.

Definition os_pardir : string := "..".

(** ** The cells *)

Section Cells.
Variable P : Provider.

(** [ws.compute_targets]: [ws] is looked up, then the registered targets
    are read. *)
Definition ws_compute_targets : M (gmap string ComputeTarget) :=
  exec global "ws" Globals.ws;
  fun s => (Ok (compute_targets s), s).

(** [ComputeTarget.create(ws, name, config)]: the request; when it is
    answered the new target is registered under the name. *)
Definition ComputeTarget_create (w : Workspace) (name : pyval)
    (config : ProvisioningConfiguration) : M ComputeTarget :=
  do c <- send (ComputeTargetCreate w name config)
               (answer_create P w name config);
  exec (fun s => (Ok tt, with_compute_target name c s));
  ret c.

(** [c.wait_for_completion(show_output=, min_node_count=,
    timeout_in_minutes=)]: the request; with [show_output] the report of
    the service is printed.  The call returns [None]. *)
Definition wait_for_completion (c : ComputeTarget) (show_output : bool)
    (min_node_count : pyval) (timeout_in_minutes : Z) : M unit :=
  do report <- send (WaitForCompletion c show_output min_node_count
                       timeout_in_minutes)
                    (answer_wait P c min_node_count timeout_in_minutes);
  if show_output then print (wr_text report) else ret tt.

(** "Create or import a workspace" *)
Definition cell_workspace : M unit :=
  do subscription_id <- getenv subscription_id_read;
  do w <- send (WorkspaceGet "dlwp-ml-1" subscription_id "DLWP")
               (answer_workspace_get P "dlwp-ml-1" subscription_id "DLWP");
  assign (Globals.set_ws w).

(** "Set up the compute cluster" *)
Definition cell_compute : M unit :=
  do v <- getenv compute_name_read;
  exec assign (Globals.set_compute_name v);
  do v <- getenv compute_min_nodes_read;
  exec assign (Globals.set_compute_min_nodes v);
  do v <- getenv compute_max_nodes_read;
  exec assign (Globals.set_compute_max_nodes v);
  do v <- getenv vm_size_read;
  exec assign (Globals.set_vm_size v);
  do name <- global "compute_name" Globals.compute_name;
  do targets <- ws_compute_targets;
  if contains targets name then
    do targets <- ws_compute_targets;
    do name <- global "compute_name" Globals.compute_name;
    do c <- lift (getitem targets name);
    exec assign (Globals.set_compute_target c);
    do c <- global "compute_target" Globals.compute_target;
    if truthy c && type_is_AmlCompute c then
      do name <- global "compute_name" Globals.compute_name;
      print ("found compute target (" ++ format_s name ++ ")")
    else ret tt
  else
    do name <- global "compute_name" Globals.compute_name;
    exec print ("creating a new compute target (" ++ format_s name ++ ")");
    do size <- global "vm_size" Globals.vm_size;
    do min_nodes <- global "compute_min_nodes" Globals.compute_min_nodes;
    do max_nodes <- global "compute_max_nodes" Globals.compute_max_nodes;
    exec assign (Globals.set_provisioning_config
                   (provisioning_configuration size min_nodes max_nodes));
    do w <- global "ws" Globals.ws;
    do name <- global "compute_name" Globals.compute_name;
    do config <- global "provisioning_config" Globals.provisioning_config;
    do c <- ComputeTarget_create w name config;
    exec assign (Globals.set_compute_target c);
    do c <- global "compute_target" Globals.compute_target;
    wait_for_completion c true PyNone 10.

(** "Copy data to the compute cluster".  The upload is a comment in the
    source: the cell sends no [DatastoreUpload]. *)
Definition cell_datastore : M unit :=
  do w <- global "ws" Globals.ws;
  do d <- send (GetDefaultDatastore w) (answer_default_datastore P w);
  exec assign (Globals.set_ds d);
  do d <- global "ds" Globals.ds;
  print (datastore_type d ++ " " ++ account_name d ++ " "
           ++ container_name d).

(** "Create the experiment" *)
Definition cell_experiment : M unit :=
  exec assign (Globals.set_experiment_name "dlwp");
  do w <- global "ws" Globals.ws;
  do name <- global "experiment_name" Globals.experiment_name;
  do e <- send (ExperimentGet w name) (answer_experiment P w name);
  assign (Globals.set_exp e).

(** "Create a TensorFlow estimator" *)
Definition cell_estimator : M unit :=
  do d <- global "ds" Globals.ds;
  exec assign (Globals.set_script_params
    [("--root-directory", PMount (as_mount (path d "DLWP")));
     ("--predictor-file",
        PText "cfs_1979-2010_hgt-thick_300-500-700_NH_T2.nc");
     ("--model-file", PText "dlwp_tau-lstm");
     ("--log-directory", PText "logs/tau-lstm");
     ("--temp-dir", PText "/mnt/tmp")]);
  do dir <- getcwd;
  do params <- global "script_params" Globals.script_params;
  do target <- global "compute_target" Globals.compute_target;
  do dir' <- getcwd;
  assign (Globals.set_tf_est
    (MkTensorFlow (os_path_join dir os_pardir) params target
       (os_path_join dir' "train_tf.py")
       ["scikit-learn"; "netCDF4"; "dask"; "xarray"] ["keras"] true)).

(** "Run the experiment": [run = exp.submit(config=tf_est)], then the
    name [run] is evaluated for display. *)
Definition cell_submit : M unit :=
  do e <- global "exp" Globals.exp;
  do config <- global "tf_est" Globals.tf_est;
  do r <- send (ExperimentSubmit e config) (answer_submit P e config);
  exec assign (Globals.set_run r);
  exec global "run" Globals.run;
  ret tt.

(** [run.cancel()] *)
Definition cell_cancel : M unit :=
  do r <- global "run" Globals.run;
  send (RunCancel r) (answer_cancel P r).

(** The notebook, top to bottom; an exception ends the execution. *)
Definition notebook : M unit :=
  exec cell_workspace;
  exec cell_compute;
  exec cell_datastore;
  exec cell_experiment;
  exec cell_estimator;
  exec cell_submit;
  cell_cancel.
End Cells.

(** A fresh kernel: no global is defined, nothing was printed or sent. *)
Definition fresh (env : gmap string string) (dir : string)
    (targets : gmap string ComputeTarget) : State :=
  MkState env dir targets Globals.empty [] [].

(** ** Reading the request log *)

(** The requests a program adds to the log when run from [s]. *)
Definition issued {A} (m : M A) (s : State) : list Request :=
  drop (length (requests s)) (requests (m s).2).

Definition is_create (r : Request) : bool :=
  match r with ComputeTargetCreate _ _ _ => true | _ => false end.

Definition is_wait (r : Request) : bool :=
  match r with WaitForCompletion _ _ _ _ => true | _ => false end.

Definition is_upload (r : Request) : bool :=
  match r with DatastoreUpload _ _ _ _ _ => true | _ => false end.

Definition is_cancel (r : Request) : bool :=
  match r with RunCancel _ => true | _ => false end.

(** ** Auxiliary definitions for the statements *)

(** The state after the four reads at the top of [cell_compute]. *)
Definition resolve_configuration (s : State) : State :=
  with_globals (fun g =>
    Globals.set_vm_size (read_env (environ s) vm_size_read)
      (Globals.set_compute_max_nodes
         (read_env (environ s) compute_max_nodes_read)
         (Globals.set_compute_min_nodes
            (read_env (environ s) compute_min_nodes_read)
            (Globals.set_compute_name
               (read_env (environ s) compute_name_read) g)))) s.

(** The provisioning configuration the environment asks for. *)
Definition configuration (env : gmap string string)
    : ProvisioningConfiguration :=
  provisioning_configuration (read_env env vm_size_read)
    (read_env env compute_min_nodes_read)
    (read_env env compute_max_nodes_read).

(** A program sends only requests accepted by [ok]. *)
Definition sends_only (ok : Request -> bool) {A} (m : M A) : Prop :=
  forall s, exists new,
    requests (m s).2 = (requests s ++ new)%list /\ forallb ok new = true.

(** The sentence "a read has a literal fallback default, used when the
    variable is unset". *)
Definition has_literal_fallback (r : env_read) : Prop :=
  exists d, er_fallback r = Some d /\ d <> PyNone /\
    forall env : gmap string string,
      env !! er_key r = None -> read_env env r = d.




(** The sentence "a target of the configured name and of another type leaves
    [compute_target] undefined", for a kernel where it was not defined. *)
Definition wrong_type_leaves_undefined (P : Provider) (s : State) : Prop :=
  forall w name c,
    Globals.ws (globals s) = Some w ->
    read_env (environ s) compute_name_read = PyStr name ->
    compute_targets s !! name = Some c ->
    ct_class c <> AmlCompute ->
    Globals.compute_target (globals s) = None ->
    filter is_create (issued (cell_compute P) s) = [] /\
    Globals.compute_target (globals (cell_compute P s).2) = None.

(** ** Sample service and states *)

Module Sample.
Definition workspace : Workspace := MkWorkspace "dlwp-ml-1" PyNone "DLWP".

Definition cluster : ComputeTarget :=
  MkComputeTarget AmlCompute "dlwp-compute-1".

Definition attached_vm : ComputeTarget :=
  MkComputeTarget (OtherCompute "RemoteCompute") "dlwp-compute-1".

Definition datastore : Datastore :=
  MkDatastore "AzureBlob" "dlwpml10633119839"
    "azureml-blobstore-ba10431a-baca-4271-b9e8-283bd838c07e".

Definition experiment : Experiment := MkExperiment workspace "dlwp".

Definition a_run : Run := MkRun "dlwp" "dlwp_1553550932_94c28310".

(** The service never reaches the minimum and reports the timeout. *)
Definition timed_out : WaitReport :=
  MkWaitReport false true "Wait timeout has been reached".

Definition provider : Provider :=
  MkProvider
    (fun name subscription_id resource_group =>
       Ok (MkWorkspace name subscription_id resource_group))
    (fun _ name _ => Ok (MkComputeTarget AmlCompute (format_s name)))
    (fun _ _ _ => Ok timed_out)
    (fun _ => Ok datastore)
    (fun w name => Ok (MkExperiment w name))
    (fun e _ => Ok (MkRun (exp_name e) "dlwp_1553550932_94c28310"))
    (fun _ => Ok tt).

Definition dir : string := "/home/user/DLWP/Azure".

(** The workspace is resolved; [targets] are registered. *)
Definition resolved (env : gmap string string)
    (targets : gmap string ComputeTarget) : State :=
  with_globals (Globals.set_ws workspace) (fresh env dir targets).

Definition with_cluster : State :=
  resolved ∅ {["dlwp-compute-1" := cluster]}.

Definition with_attached_vm : State :=
  resolved ∅ {["dlwp-compute-1" := attached_vm]}.

Definition without_target : State := resolved ∅ ∅.

Definition with_node_bounds : State :=
  resolved {["AML_COMPUTE_CLUSTER_MIN_NODES" := "1";
             "AML_COMPUTE_CLUSTER_MAX_NODES" := "4"]} ∅.

(** All is ready for the estimator cell. *)
Definition ready : State :=
  with_globals
    (fun g => Globals.set_exp experiment
                (Globals.set_ds datastore
                   (Globals.set_compute_target cluster g)))
    with_cluster.

Definition submitted : State :=
  with_globals (Globals.set_run a_run) ready.
End Sample.

(** ** Failures of the service *)




(** Services that fail at one point and answer like [Sample.provider]
    everywhere else. *)
Module Faulty.



End Faulty.

(** A cell stops at a name that is not defined, before sending anything. *)
Definition stops_at_name (m : M unit) (s : State) (name : string) : Prop :=
  (m s).1 = Raise (NameError name) /\ issued m s = [].

(** ** Proof tools *)

Ltac concrete_state s :=
  let env := fresh "env" in
  let dir := fresh "dir" in
  let targets := fresh "targets" in
  let out := fresh "out" in
  let reqs := fresh "reqs" in
  destruct s as [env dir targets [] out reqs];
  cbn [environ cwd compute_targets globals stdout requests
       Globals.ws Globals.compute_name Globals.compute_min_nodes
       Globals.compute_max_nodes Globals.vm_size Globals.compute_target
       Globals.provisioning_config Globals.ds Globals.experiment_name
       Globals.exp Globals.script_params Globals.tf_est Globals.run] in *;
  subst.

Ltac run_cell :=
  cbv -[read_env subscription_id_read compute_name_read
        compute_min_nodes_read compute_max_nodes_read vm_size_read
        lookup insert gmap_lookup gmap_partial_alter map_insert
        stdpp.strings.String.eq_dec stdpp.strings.String.countable
        String.append app format_s pretty
        type_is_AmlCompute os_path_join
        answer_workspace_get answer_create answer_wait
        answer_default_datastore answer_experiment answer_submit
        answer_cancel].

Lemma issued_app {A} (m : M A) (s : State) (new : list Request) :
  requests (m s).2 = (requests s ++ new)%list -> issued m s = new.
Proof.
  intros H. unfold issued. rewrite H. apply drop_app_length.
Qed.

Lemma compute_name_is_str (env : gmap string string) :
  exists name, read_env env compute_name_read = PyStr name.
Proof.
  unfold read_env, os_environ_get; cbn.
  destruct (env !! "AML_COMPUTE_CLUSTER_NAME"); eauto.
Qed.

(** [cell_compute] when the configured name is registered. *)
Lemma cell_compute_present P s w name c :
  Globals.ws (globals s) = Some w ->
  read_env (environ s) compute_name_read = PyStr name ->
  compute_targets s !! name = Some c ->
  cell_compute P s =
    (Ok tt,
     let s1 := with_globals (Globals.set_compute_target c)
                 (resolve_configuration s) in
     if type_is_AmlCompute c
     then with_stdout ("found compute target (" ++ name ++ ")") s1
     else s1).
Proof.
  intros Hws Hname Hc. concrete_state s.
  run_cell. repeat (progress (rewrite ?Hname, ?Hc); run_cell).
  destruct (type_is_AmlCompute c); reflexivity.
Qed.

(** [cell_compute] when the configured name is not registered. *)
Lemma cell_compute_absent P s w name :
  Globals.ws (globals s) = Some w ->
  read_env (environ s) compute_name_read = PyStr name ->
  compute_targets s !! name = None ->
  let config := configuration (environ s) in
  let s1 :=
    with_request (ComputeTargetCreate w (PyStr name) config)
      (with_globals (Globals.set_provisioning_config config)
         (with_stdout ("creating a new compute target (" ++ name ++ ")")
            (resolve_configuration s))) in
  cell_compute P s =
    match answer_create P w (PyStr name) config with
    | Raise e => (Raise e, s1)
    | Ok c =>
        let s2 :=
          with_request (WaitForCompletion c true PyNone 10)
            (with_globals (Globals.set_compute_target c)
               (with_compute_target (PyStr name) c s1)) in
        match answer_wait P c PyNone 10 with
        | Raise e => (Raise e, s2)
        | Ok report => (Ok tt, with_stdout (wr_text report) s2)
        end
    end.
Proof.
  intros Hws Hname Hc. concrete_state s.
  run_cell. repeat (progress (rewrite ?Hname, ?Hc); run_cell).
  destruct (answer_create P _ _ _) as [c|e]; [|reflexivity].
  destruct (answer_wait P c PyNone 10); reflexivity.
Qed.

(** [cell_compute] in a kernel where [ws] is not defined. *)
Lemma cell_compute_no_workspace P s :
  Globals.ws (globals s) = None ->
  cell_compute P s = (Raise (NameError "ws"), resolve_configuration s).
Proof.
  intros Hws. concrete_state s. reflexivity.
Qed.

(** The requests of [cell_compute] when the configured name is not
    registered: the creation, then the wait when the creation is answered. *)
Lemma cell_compute_absent_issued P s w name :
  Globals.ws (globals s) = Some w ->
  read_env (environ s) compute_name_read = PyStr name ->
  compute_targets s !! name = None ->
  issued (cell_compute P) s
    = ComputeTargetCreate w (PyStr name) (configuration (environ s))
        :: match answer_create P w (PyStr name) (configuration (environ s))
           with
           | Ok c => [WaitForCompletion c true PyNone 10]
           | Raise _ => []
           end.
Proof.
  intros Hws Hname Hc.
  pose proof (cell_compute_absent P s w name Hws Hname Hc) as E.
  cbn zeta in E. apply issued_app. rewrite E.
  destruct (answer_create P _ _ _) as [c|e]; [|reflexivity].
  destruct (answer_wait P c PyNone 10); cbn;
    rewrite <- app_assoc; reflexivity.
Qed.

(** Whatever happens later in the cell, the four configuration globals hold
    what the environment reads returned. *)
Lemma cell_compute_globals P s :
  let g := globals (cell_compute P s).2 in
  Globals.compute_name g = Some (read_env (environ s) compute_name_read) /\
  Globals.compute_min_nodes g
    = Some (read_env (environ s) compute_min_nodes_read) /\
  Globals.compute_max_nodes g
    = Some (read_env (environ s) compute_max_nodes_read) /\
  Globals.vm_size g = Some (read_env (environ s) vm_size_read).
Proof.
  destruct (compute_name_is_str (environ s)) as [name Hname].
  destruct (Globals.ws (globals s)) as [w|] eqn:Hws.
  - destruct (compute_targets s !! name) as [c|] eqn:Hc.
    + rewrite (cell_compute_present P s w name c Hws Hname Hc).
      cbn. destruct (type_is_AmlCompute c); cbn; auto.
    + rewrite (cell_compute_absent P s w name Hws Hname Hc).
      destruct (answer_create P _ _ _) as [c|e]; [|cbn; auto].
      destruct (answer_wait P c PyNone 10); cbn; auto.
  - rewrite (cell_compute_no_workspace P s Hws). cbn; auto.
Qed.

(** *** Which requests a program can send *)

Section SendsOnly.
Variable ok : Request -> bool.

Lemma sends_only_quiet {A} (m : M A) :
  (forall s, requests (m s).2 = requests s) -> sends_only ok m.
Proof.
  intros H s. exists []. rewrite H, app_nil_r. auto.
Qed.

Lemma sends_only_bind {A B} (m : M A) (k : A -> M B) :
  sends_only ok m -> (forall a, sends_only ok (k a)) ->
  sends_only ok (bind m k).
Proof.
  intros Hm Hk s. unfold bind.
  destruct (Hm s) as (new1 & E1 & F1).
  destruct (m s) as [[a|e] s1]; cbn in E1.
  - destruct (Hk a s1) as (new2 & E2 & F2).
    exists (new1 ++ new2)%list. rewrite E2, E1, <- app_assoc.
    split; [reflexivity|]. rewrite forallb_app, F1, F2. reflexivity.
  - exists new1. auto.
Qed.

Lemma sends_only_send {A} (r : Request) (answer : Res A) :
  ok r = true -> sends_only ok (send r answer).
Proof.
  intros H s. exists [r]. cbn. rewrite H. auto.
Qed.

Lemma sends_only_global {A} name (field : Globals.t -> option A) :
  sends_only ok (global name field).
Proof.
  apply sends_only_quiet. intros s. unfold global.
  destruct (field (globals s)); reflexivity.
Qed.

Lemma sends_only_register name c :
  sends_only ok (fun s => (Ok tt, with_compute_target name c s)).
Proof.
  apply sends_only_quiet. intros s. destruct name; reflexivity.
Qed.

Lemma sends_only_if {A} (b : bool) (m1 m2 : M A) :
  sends_only ok m1 -> sends_only ok m2 ->
  sends_only ok (if b then m1 else m2).
Proof. destruct b; auto. Qed.
End SendsOnly.

Ltac sends_only_step :=
  first
    [ apply sends_only_bind; [|intros ?]
    | apply sends_only_if
    | apply sends_only_global
    | apply sends_only_register
    | apply sends_only_send; reflexivity
    | apply sends_only_quiet; intros ?; reflexivity ].

Ltac sends_only_cell := repeat sends_only_step.

Lemma cell_workspace_sends ok P :
  (forall n i g, ok (WorkspaceGet n i g) = true) ->
  sends_only ok (cell_workspace P).
Proof.
  intros H. unfold cell_workspace. sends_only_cell.
  apply sends_only_send, H.
Qed.

Lemma cell_compute_sends ok P :
  (forall w n c, ok (ComputeTargetCreate w n c) = true) ->
  (forall c b n t, ok (WaitForCompletion c b n t) = true) ->
  sends_only ok (cell_compute P).
Proof.
  intros Hc Hw.
  unfold cell_compute, ws_compute_targets, ComputeTarget_create,
    wait_for_completion.
  sends_only_cell; apply sends_only_send; auto.
Qed.

Lemma cell_datastore_sends ok P :
  (forall w, ok (GetDefaultDatastore w) = true) ->
  sends_only ok (cell_datastore P).
Proof.
  intros H. unfold cell_datastore. sends_only_cell.
  apply sends_only_send, H.
Qed.

Lemma cell_experiment_sends ok P :
  (forall w n, ok (ExperimentGet w n) = true) ->
  sends_only ok (cell_experiment P).
Proof.
  intros H. unfold cell_experiment. sends_only_cell.
  apply sends_only_send, H.
Qed.

Lemma cell_estimator_sends ok : sends_only ok cell_estimator.
Proof. unfold cell_estimator. sends_only_cell. Qed.

Lemma cell_submit_sends ok P :
  (forall e c, ok (ExperimentSubmit e c) = true) ->
  sends_only ok (cell_submit P).
Proof.
  intros H. unfold cell_submit. sends_only_cell.
  apply sends_only_send, H.
Qed.

Lemma cell_cancel_sends ok P :
  (forall r, ok (RunCancel r) = true) ->
  sends_only ok (cell_cancel P).
Proof.
  intros H. unfold cell_cancel. sends_only_cell.
  apply sends_only_send, H.
Qed.

(** ** The compute provisioner *)

(** C1. When the workspace already registers the configured cluster name and
    the entry is an [AmlCompute] target, the compute cell completes, sends no
    request to the service (hence no creation request and no wait call),
    leaves the registered targets as they are and binds [compute_target] to
    the existing entry; it prints the "found" line. *)
Theorem reuse_existing_cluster P s w name c :
  Globals.ws (globals s) = Some w ->
  read_env (environ s) compute_name_read = PyStr name ->
  compute_targets s !! name = Some c ->
  ct_class c = AmlCompute ->
  exists s',
    cell_compute P s = (Ok tt, s') /\
    issued (cell_compute P) s = [] /\
    filter is_create (issued (cell_compute P) s) = [] /\
    filter is_wait (issued (cell_compute P) s) = [] /\
    Globals.compute_target (globals s') = Some c /\
    compute_targets s' = compute_targets s /\
    stdout s' = app (stdout s) ["found compute target (" ++ name ++ ")"].
Proof.
  intros Hws Hname Hc Hclass.
  pose proof (cell_compute_present P s w name c Hws Hname Hc) as E.
  unfold type_is_AmlCompute in E.
  rewrite bool_decide_eq_true_2 in E by assumption. cbn zeta in E.
  assert (Hnone : issued (cell_compute P) s = []).
  { apply issued_app. rewrite E, app_nil_r. reflexivity. }
  eexists. split; [exact E|]. rewrite Hnone.
  repeat split; reflexivity.
Qed.

Lemma reuse_existing_cluster_witness :
  exists s',
    cell_compute Sample.provider Sample.with_cluster = (Ok tt, s') /\
    issued (cell_compute Sample.provider) Sample.with_cluster = [] /\
    filter is_create
      (issued (cell_compute Sample.provider) Sample.with_cluster) = [] /\
    filter is_wait
      (issued (cell_compute Sample.provider) Sample.with_cluster) = [] /\
    Globals.compute_target (globals s') = Some Sample.cluster /\
    compute_targets s' = compute_targets Sample.with_cluster /\
    stdout s' = ["found compute target (dlwp-compute-1)"].
Proof.
  apply (reuse_existing_cluster Sample.provider Sample.with_cluster
           Sample.workspace "dlwp-compute-1" Sample.cluster);
    reflexivity.
Defined.


(** C2. When the workspace does not register the configured cluster name,
    the compute cell sends exactly one creation request, first of all its
    requests, for that name; its configuration carries the VM size and the
    minimum and maximum node counts read from the environment. *)
Theorem create_when_absent P s w name :
  Globals.ws (globals s) = Some w ->
  read_env (environ s) compute_name_read = PyStr name ->
  compute_targets s !! name = None ->
  exists config rest,
    issued (cell_compute P) s
      = ComputeTargetCreate w (PyStr name) config :: rest /\
    filter is_create (issued (cell_compute P) s)
      = [ComputeTargetCreate w (PyStr name) config] /\
    pc_vm_size config = read_env (environ s) vm_size_read /\
    pc_min_nodes config = read_env (environ s) compute_min_nodes_read /\
    pc_max_nodes config = read_env (environ s) compute_max_nodes_read.
Proof.
  intros Hws Hname Hc.
  rewrite (cell_compute_absent_issued P s w name Hws Hname Hc).
  exists (configuration (environ s)). eexists. split; [reflexivity|].
  split; [|repeat split; reflexivity].
  destruct (answer_create P _ _ _); reflexivity.
Qed.

Lemma create_when_absent_witness :
  exists config rest,
    issued (cell_compute Sample.provider) Sample.without_target
      = ComputeTargetCreate Sample.workspace (PyStr "dlwp-compute-1") config
          :: rest /\
    filter is_create
      (issued (cell_compute Sample.provider) Sample.without_target)
      = [ComputeTargetCreate Sample.workspace (PyStr "dlwp-compute-1")
           config] /\
    pc_vm_size config = PyStr "STANDARD_NV6" /\
    pc_min_nodes config = PyInt 0 /\
    pc_max_nodes config = PyInt 2.
Proof.
  apply (create_when_absent Sample.provider Sample.without_target
           Sample.workspace "dlwp-compute-1");
    reflexivity.
Defined.

(** C3, as the code has it.  When the configured cluster name is registered
    with an entry that is not an [AmlCompute] target, the compute cell
    completes, sends no request (no creation, no wait), prints nothing,
    leaves the registered targets as they are, and does bind
    [compute_target]: to the existing entry of the other type. *)
Theorem wrong_type_is_bound P s w name c :
  Globals.ws (globals s) = Some w ->
  read_env (environ s) compute_name_read = PyStr name ->
  compute_targets s !! name = Some c ->
  ct_class c <> AmlCompute ->
  exists s',
    cell_compute P s = (Ok tt, s') /\
    issued (cell_compute P) s = [] /\
    Globals.compute_target (globals s') = Some c /\
    compute_targets s' = compute_targets s /\
    stdout s' = stdout s.
Proof.
  intros Hws Hname Hc Hclass.
  pose proof (cell_compute_present P s w name c Hws Hname Hc) as E.
  unfold type_is_AmlCompute in E.
  rewrite bool_decide_eq_false_2 in E by assumption. cbn zeta in E.
  eexists. split; [exact E|]. split.
  - apply issued_app. rewrite E, app_nil_r. reflexivity.
  - repeat split; reflexivity.
Qed.

Lemma wrong_type_is_bound_witness :
  exists s',
    cell_compute Sample.provider Sample.with_attached_vm = (Ok tt, s') /\
    issued (cell_compute Sample.provider) Sample.with_attached_vm = [] /\
    Globals.compute_target (globals s') = Some Sample.attached_vm /\
    compute_targets s' = compute_targets Sample.with_attached_vm /\
    stdout s' = [].
Proof.
  apply (wrong_type_is_bound Sample.provider Sample.with_attached_vm
           Sample.workspace "dlwp-compute-1" Sample.attached_vm);
    [reflexivity | reflexivity | reflexivity | discriminate].
Defined.

(** C3, as the specification words it, fails: with a [RemoteCompute] entry
    under the configured name and [compute_target] not yet defined, the cell
    leaves [compute_target] defined. *)
Lemma wrong_type_leaves_undefined_fails :
  ~ wrong_type_leaves_undefined Sample.provider Sample.with_attached_vm.
Proof.
  intros H.
  destruct (H Sample.workspace "dlwp-compute-1" Sample.attached_vm)
    as [_ Hundefined];
    [reflexivity | reflexivity | reflexivity | discriminate | reflexivity |].
  vm_compute in Hundefined. discriminate Hundefined.
Qed.

(** The target of the other type then reaches the job descriptor. *)
Lemma wrong_type_reaches_estimator :
  (Globals.tf_est (globals (notebook Sample.provider
      (fresh ∅ Sample.dir {["dlwp-compute-1" := Sample.attached_vm]})).2))
    ≫= (fun est => Some (compute_target est))
  = Some Sample.attached_vm.
Proof. vm_compute. reflexivity. Qed.

(** C7. When the configured name is absent and the service answers the
    creation request with a target, the cell next sends one wait request for
    that target, with [show_output=True], [min_node_count=None] and the fixed
    timeout of 10 minutes, and sends nothing after it.  The cell never looks
    at the outcome of the wait: it raises only what the wait itself raises,
    and for every report of the service, also one saying that the minimum
    was not reached before the timeout, it completes normally with the
    report printed and [compute_target] bound to the created target. *)
Theorem wait_after_create P s w name c :
  Globals.ws (globals s) = Some w ->
  read_env (environ s) compute_name_read = PyStr name ->
  compute_targets s !! name = None ->
  answer_create P w (PyStr name) (configuration (environ s)) = Ok c ->
  issued (cell_compute P) s
    = [ComputeTargetCreate w (PyStr name) (configuration (environ s));
       WaitForCompletion c true PyNone 10] /\
  (cell_compute P s).1
    = match answer_wait P c PyNone 10 with
      | Ok _ => Ok tt
      | Raise e => Raise e
      end /\
  forall report,
    answer_wait P c PyNone 10 = Ok report ->
    exists s',
      cell_compute P s = (Ok tt, s') /\
      Globals.compute_target (globals s') = Some c /\
      stdout s'
        = app (stdout s)
            ["creating a new compute target (" ++ name ++ ")";
             wr_text report].
Proof.
  intros Hws Hname Hc Hcreate.
  pose proof (cell_compute_absent_issued P s w name Hws Hname Hc) as Hnew.
  pose proof (cell_compute_absent P s w name Hws Hname Hc) as E.
  cbn zeta in E. rewrite Hcreate in Hnew, E.
  split; [exact Hnew|]. split.
  - rewrite E. destruct (answer_wait P c PyNone 10); reflexivity.
  - intros report Hwait. rewrite Hwait in E.
    eexists. split; [exact E|]. split; [reflexivity|].
    cbn. rewrite <- app_assoc. reflexivity.
Qed.

Lemma wait_after_create_witness :
  wr_min_nodes_reached Sample.timed_out = false /\
  wr_timeout_reached Sample.timed_out = true /\
  exists s',
    cell_compute Sample.provider Sample.without_target = (Ok tt, s') /\
    Globals.compute_target (globals s') = Some Sample.cluster /\
    stdout s'
      = ["creating a new compute target (dlwp-compute-1)";
         "Wait timeout has been reached"].
Proof.
  split; [reflexivity|]. split; [reflexivity|].
  destruct (wait_after_create Sample.provider Sample.without_target
              Sample.workspace "dlwp-compute-1" Sample.cluster)
    as (_ & _ & Hreport); try reflexivity.
  apply (Hreport Sample.timed_out). reflexivity.
Defined.

(** ** The configuration read from the environment *)

(** C4. When none of the four cluster variables is set, the compute cell
    resolves the configuration to the literal defaults: cluster name
    ["dlwp-compute-1"], minimum nodes the integer 0, maximum nodes the
    integer 2, VM size ["STANDARD_NV6"]. *)
Theorem defaults_when_unset P s :
  environ s !! "AML_COMPUTE_CLUSTER_NAME" = None ->
  environ s !! "AML_COMPUTE_CLUSTER_MIN_NODES" = None ->
  environ s !! "AML_COMPUTE_CLUSTER_MAX_NODES" = None ->
  environ s !! "AML_COMPUTE_CLUSTER_SKU" = None ->
  let g := globals (cell_compute P s).2 in
  Globals.compute_name g = Some (PyStr "dlwp-compute-1") /\
  Globals.compute_min_nodes g = Some (PyInt 0) /\
  Globals.compute_max_nodes g = Some (PyInt 2) /\
  Globals.vm_size g = Some (PyStr "STANDARD_NV6") /\
  configuration (environ s)
    = provisioning_configuration (PyStr "STANDARD_NV6") (PyInt 0) (PyInt 2).
Proof.
  intros Hname Hmin Hmax Hsku g.
  destruct (cell_compute_globals P s) as (E1 & E2 & E3 & E4).
  subst g. rewrite E1, E2, E3, E4.
  unfold configuration, read_env, os_environ_get. cbn.
  rewrite Hname, Hmin, Hmax, Hsku. repeat split; reflexivity.
Qed.

Lemma defaults_when_unset_witness :
  let g := globals (cell_compute Sample.provider Sample.without_target).2 in
  Globals.compute_name g = Some (PyStr "dlwp-compute-1") /\
  Globals.compute_min_nodes g = Some (PyInt 0) /\
  Globals.compute_max_nodes g = Some (PyInt 2) /\
  Globals.vm_size g = Some (PyStr "STANDARD_NV6") /\
  configuration (environ Sample.without_target)
    = provisioning_configuration (PyStr "STANDARD_NV6") (PyInt 0) (PyInt 2).
Proof.
  apply (defaults_when_unset Sample.provider Sample.without_target);
    reflexivity.
Defined.

(** C10. In the creation request the node bounds are what the environment
    lookup returned: the raw string when the variable is set, of type [str],
    and only when it is unset the integer default 0 or 2, of type [int]. *)
Theorem node_bounds_are_raw P s w name :
  Globals.ws (globals s) = Some w ->
  read_env (environ s) compute_name_read = PyStr name ->
  compute_targets s !! name = None ->
  exists config,
    filter is_create (issued (cell_compute P) s)
      = [ComputeTargetCreate w (PyStr name) config] /\
    pc_min_nodes config
      = match environ s !! "AML_COMPUTE_CLUSTER_MIN_NODES" with
        | Some raw => PyStr raw
        | None => PyInt 0
        end /\
    pc_max_nodes config
      = match environ s !! "AML_COMPUTE_CLUSTER_MAX_NODES" with
        | Some raw => PyStr raw
        | None => PyInt 2
        end /\
    type_of (pc_min_nodes config)
      = match environ s !! "AML_COMPUTE_CLUSTER_MIN_NODES" with
        | Some _ => StrType
        | None => IntType
        end /\
    type_of (pc_max_nodes config)
      = match environ s !! "AML_COMPUTE_CLUSTER_MAX_NODES" with
        | Some _ => StrType
        | None => IntType
        end.
Proof.
  intros Hws Hname Hc.
  rewrite (cell_compute_absent_issued P s w name Hws Hname Hc).
  exists (configuration (environ s)). split.
  - destruct (answer_create P _ _ _); reflexivity.
  - unfold configuration, read_env, os_environ_get. cbn.
    destruct (environ s !! "AML_COMPUTE_CLUSTER_MIN_NODES"),
      (environ s !! "AML_COMPUTE_CLUSTER_MAX_NODES"); auto.
Qed.

Lemma node_bounds_are_raw_witness :
  exists config,
    filter is_create
      (issued (cell_compute Sample.provider) Sample.with_node_bounds)
      = [ComputeTargetCreate Sample.workspace (PyStr "dlwp-compute-1")
           config] /\
    pc_min_nodes config = PyStr "1" /\
    pc_max_nodes config = PyStr "4" /\
    type_of (pc_min_nodes config) = StrType /\
    type_of (pc_max_nodes config) = StrType.
Proof.
  apply (node_bounds_are_raw Sample.provider Sample.with_node_bounds
           Sample.workspace "dlwp-compute-1");
    reflexivity.
Defined.


(** A read written with a second argument other than [None] has a literal
    fallback. *)
Lemma written_fallback r d :
  er_fallback r = Some d -> d <> PyNone -> has_literal_fallback r.
Proof.
  intros Hd Hnone. exists d. repeat split; try assumption.
  intros env Hunset. unfold read_env, os_environ_get, er_default.
  rewrite Hunset, Hd. reflexivity.
Qed.

(** C6, as the specification words it, fails: the subscription id is one of
    the reads and it has no fallback; unset, it yields [None]. *)
Lemma not_every_read_has_fallback :
  ~ (forall r, r ∈ consumed_reads -> has_literal_fallback r).
Proof.
  intros H.
  destruct (H subscription_id_read) as (d & Hd & _).
  - apply list_elem_of_here.
  - discriminate Hd.
Qed.

(** C6, as the code has it.  The four cluster variables (name, minimum and
    maximum node counts, VM size) are each read with a literal fallback that
    is the result when the variable is unset.  The subscription id is read
    without a fallback: unset, the read yields [None], and that is what the
    workspace request carries. *)
Theorem cluster_reads_have_fallback :
  Forall has_literal_fallback cluster_reads /\
  er_fallback subscription_id_read = None /\
  (forall env : gmap string string,
     read_env env subscription_id_read
       = match env !! "AZURE_SUBSCRIPTION_ID" with
         | Some raw => PyStr raw
         | None => PyNone
         end) /\
  (forall P s,
     issued (cell_workspace P) s
       = [WorkspaceGet "dlwp-ml-1" (read_env (environ s) subscription_id_read)
            "DLWP"]).
Proof.
  split; [|split; [reflexivity|split]].
  - unfold cluster_reads.
    repeat (apply Forall_cons_2;
            [eapply written_fallback; [reflexivity|discriminate]|]).
    apply Forall_nil_2.
  - intros env. reflexivity.
  - intros P s. apply issued_app. unfold cell_workspace, bind, getenv, send.
    cbn. destruct (answer_workspace_get P _ _ _); reflexivity.
Qed.

Lemma cluster_reads_have_fallback_witness :
  read_env ∅ vm_size_read = PyStr "STANDARD_NV6" /\
  read_env ∅ subscription_id_read = PyNone.
Proof.
  destruct cluster_reads_have_fallback as (Hall & _ & Hsub & _).
  split; [|apply Hsub].
  pose proof (proj1 (Forall_forall _ _) Hall vm_size_read) as H.
  destruct H as (d & Hd & _ & Hread).
  - unfold cluster_reads. set_solver.
  - injection Hd as <-. apply Hread. reflexivity.
Defined.

(** ** The job descriptor *)

(** C5. The estimator cell followed by the submission sends one request, the
    submission of the job descriptor.  The descriptor's parameters are
    exactly the five flags [--root-directory], [--predictor-file],
    [--model-file], [--log-directory], [--temp-dir] with the values written
    in the notebook (the first one the mounted folder [DLWP] of the
    datastore), [use_gpu] is true, the conda packages are scikit-learn,
    netCDF4, dask and xarray, and the pip packages are keras. *)
Theorem submitted_job_descriptor P s d c e :
  Globals.ds (globals s) = Some d ->
  Globals.compute_target (globals s) = Some c ->
  Globals.exp (globals s) = Some e ->
  exists config,
    issued (exec cell_estimator; cell_submit P) s
      = [ExperimentSubmit e config] /\
    script_params config
      = [("--root-directory", PMount (MkDataReference d "DLWP" ModeMount));
         ("--predictor-file",
            PText "cfs_1979-2010_hgt-thick_300-500-700_NH_T2.nc");
         ("--model-file", PText "dlwp_tau-lstm");
         ("--log-directory", PText "logs/tau-lstm");
         ("--temp-dir", PText "/mnt/tmp")] /\
    map fst (script_params config)
      = ["--root-directory"; "--predictor-file"; "--model-file";
         "--log-directory"; "--temp-dir"] /\
    use_gpu config = true /\
    conda_packages config = ["scikit-learn"; "netCDF4"; "dask"; "xarray"] /\
    pip_packages config = ["keras"] /\
    compute_target config = c.
Proof.
  intros Hds Hc He. concrete_state s.
  eexists. split.
  - apply issued_app. run_cell.
    destruct (answer_submit P _ _); reflexivity.
  - repeat split; reflexivity.
Qed.

Lemma submitted_job_descriptor_witness :
  exists config,
    issued (exec cell_estimator; cell_submit Sample.provider) Sample.ready
      = [ExperimentSubmit Sample.experiment config] /\
    script_params config
      = [("--root-directory",
            PMount (MkDataReference Sample.datastore "DLWP" ModeMount));
         ("--predictor-file",
            PText "cfs_1979-2010_hgt-thick_300-500-700_NH_T2.nc");
         ("--model-file", PText "dlwp_tau-lstm");
         ("--log-directory", PText "logs/tau-lstm");
         ("--temp-dir", PText "/mnt/tmp")] /\
    map fst (script_params config)
      = ["--root-directory"; "--predictor-file"; "--model-file";
         "--log-directory"; "--temp-dir"] /\
    use_gpu config = true /\
    conda_packages config = ["scikit-learn"; "netCDF4"; "dask"; "xarray"] /\
    pip_packages config = ["keras"] /\
    compute_target config = Sample.cluster.
Proof.
  apply (submitted_job_descriptor Sample.provider Sample.ready
           Sample.datastore Sample.cluster Sample.experiment);
    reflexivity.
Defined.

(** ** Cancellation *)

(** C8. For a submitted run, the cancel cell sends exactly one request, the
    cancellation of that run, and returns with the answer to it: no wait and
    no status request follows, and nothing but the request log changes. *)
Theorem cancel_is_one_request P s r :
  Globals.run (globals s) = Some r ->
  cell_cancel P s = (answer_cancel P r, with_request (RunCancel r) s) /\
  issued (cell_cancel P) s = [RunCancel r] /\
  length (filter is_cancel (issued (cell_cancel P) s)) = 1%nat.
Proof.
  intros Hrun.
  assert (E : cell_cancel P s
              = (answer_cancel P r, with_request (RunCancel r) s)).
  { unfold cell_cancel, bind, global, send. rewrite Hrun. reflexivity. }
  assert (Hnew : issued (cell_cancel P) s = [RunCancel r]).
  { apply issued_app. rewrite E. reflexivity. }
  rewrite Hnew. auto.
Qed.

Lemma cancel_is_one_request_witness :
  cell_cancel Sample.provider Sample.submitted
    = (Ok tt, with_request (RunCancel Sample.a_run) Sample.submitted) /\
  issued (cell_cancel Sample.provider) Sample.submitted
    = [RunCancel Sample.a_run] /\
  length (filter is_cancel
            (issued (cell_cancel Sample.provider) Sample.submitted)) = 1%nat.
Proof.
  apply (cancel_is_one_request Sample.provider Sample.submitted
           Sample.a_run).
  reflexivity.
Defined.

(** ** The data reference *)

(** The whole notebook never sends an upload. *)
Lemma notebook_never_uploads P :
  sends_only (fun q => negb (is_upload q)) (notebook P).
Proof.
  unfold notebook.
  apply sends_only_bind; [apply cell_workspace_sends; reflexivity|intros _].
  apply sends_only_bind; [apply cell_compute_sends; reflexivity|intros _].
  apply sends_only_bind; [apply cell_datastore_sends; reflexivity|intros _].
  apply sends_only_bind; [apply cell_experiment_sends; reflexivity|intros _].
  apply sends_only_bind; [apply cell_estimator_sends|intros _].
  apply sends_only_bind; [apply cell_submit_sends; reflexivity|intros _].
  apply cell_cancel_sends; reflexivity.
Qed.

(** The estimator cell sends nothing. *)
Lemma cell_estimator_quiet s : issued cell_estimator s = [].
Proof.
  destruct (cell_estimator_sends (fun _ => false) s) as (new & E & Hnew).
  destruct new as [|q new]; [|discriminate Hnew].
  apply issued_app, E.
Qed.

(** C9. With the workspace resolved and the service answering with its
    default datastore [d], the datastore cell binds [ds] to [d] and sends
    only the request for the default datastore.  The estimator cell then
    builds the mount reference to the folder [DLWP] of [d] without sending
    anything.  No upload is ever sent, by any execution of the notebook. *)
Theorem datastore_reference_without_upload P s w d :
  Globals.ws (globals s) = Some w ->
  answer_default_datastore P w = Ok d ->
  (exists s',
     cell_datastore P s = (Ok tt, s') /\
     issued (cell_datastore P) s = [GetDefaultDatastore w] /\
     Globals.ds (globals s') = Some d /\
     issued cell_estimator s' = [] /\
     Globals.script_params (globals (cell_estimator s').2) ≫= head
       = Some ("--root-directory",
               PMount (MkDataReference d "DLWP" ModeMount))) /\
  (forall s0 q, q ∈ issued (notebook P) s0 -> is_upload q = false).
Proof.
  intros Hws Hd. split.
  - assert (E : cell_datastore P s
                = (Ok tt,
                   with_stdout
                     (datastore_type d ++ " " ++ account_name d ++ " "
                        ++ container_name d)
                     (with_globals (Globals.set_ds d)
                        (with_request (GetDefaultDatastore w) s)))).
    { unfold cell_datastore, bind, global, send, assign, print.
      rewrite Hws, Hd. reflexivity. }
    eexists. split; [exact E|]. split; [|split; [|split]].
    + apply issued_app. rewrite E. reflexivity.
    + reflexivity.
    + apply cell_estimator_quiet.
    + unfold cell_estimator, bind, global, assign, getcwd. cbn.
      destruct (Globals.compute_target (globals s)); reflexivity.
  - intros s0 q Hq.
    destruct (notebook_never_uploads P s0) as (new & E & Hnew).
    rewrite (issued_app _ _ _ E) in Hq.
    apply list_elem_of_In in Hq.
    pose proof (proj1 (forallb_forall _ _) Hnew q Hq) as Hok.
    cbn beta in Hok. destruct (is_upload q); [discriminate Hok|reflexivity].
Qed.

Lemma datastore_reference_without_upload_witness :
  (exists s',
     cell_datastore Sample.provider Sample.with_cluster = (Ok tt, s') /\
     issued (cell_datastore Sample.provider) Sample.with_cluster
       = [GetDefaultDatastore Sample.workspace] /\
     Globals.ds (globals s') = Some Sample.datastore /\
     issued cell_estimator s' = [] /\
     Globals.script_params (globals (cell_estimator s').2) ≫= head
       = Some ("--root-directory",
               PMount (MkDataReference Sample.datastore "DLWP" ModeMount)))
  /\
  (forall s0 q,
     q ∈ issued (notebook Sample.provider) s0 -> is_upload q = false).
Proof.
  apply (datastore_reference_without_upload Sample.provider
           Sample.with_cluster Sample.workspace Sample.datastore);
    reflexivity.
Defined.

(** ** The environment variables consumed *)









(** ** More on the compute provisioner *)

(** The compute cell sends a creation request exactly when the workspace is
    resolved and the configured name is not registered, and never more than
    one. *)
Theorem creation_iff_absent P s name :
  read_env (environ s) compute_name_read = PyStr name ->
  (length (filter is_create (issued (cell_compute P) s)) <= 1)%nat /\
  (filter is_create (issued (cell_compute P) s) <> []
   <-> is_Some (Globals.ws (globals s)) /\ compute_targets s !! name = None).
Proof.
  intros Hname.
  destruct (Globals.ws (globals s)) as [w|] eqn:Hws.
  - destruct (compute_targets s !! name) as [c|] eqn:Hc.
    + assert (Hnew : issued (cell_compute P) s = []).
      { apply issued_app.
        rewrite (cell_compute_present P s w name c Hws Hname Hc), app_nil_r.
        cbn zeta. destruct (type_is_AmlCompute c); reflexivity. }
      rewrite Hnew. cbn. split; [lia|].
      split; [congruence|]. intros [_ Habsent]. discriminate Habsent.
    + rewrite (cell_compute_absent_issued P s w name Hws Hname Hc).
      assert (Hone : filter is_create
                (ComputeTargetCreate w (PyStr name)
                   (configuration (environ s))
                 :: match answer_create P w (PyStr name)
                            (configuration (environ s)) with
                    | Ok c => [WaitForCompletion c true PyNone 10]
                    | Raise _ => []
                    end)
              = [ComputeTargetCreate w (PyStr name)
                   (configuration (environ s))]).
      { destruct (answer_create P _ _ _); reflexivity. }
      rewrite Hone. cbn. split; [lia|].
      split; [eauto|discriminate].
  - assert (Hnew : issued (cell_compute P) s = []).
    { apply issued_app.
      rewrite (cell_compute_no_workspace P s Hws), app_nil_r. reflexivity. }
    rewrite Hnew. cbn. split; [lia|].
    split; [congruence|]. intros [[w Hw] _]. discriminate Hw.
Qed.

Lemma creation_iff_absent_witness :
  (length (filter is_create
     (issued (cell_compute Sample.provider) Sample.without_target)) <= 1)%nat
  /\
  (filter is_create
     (issued (cell_compute Sample.provider) Sample.without_target) <> []
   <-> is_Some (Globals.ws (globals Sample.without_target)) /\
       compute_targets Sample.without_target !! "dlwp-compute-1" = None).
Proof.
  apply (creation_iff_absent Sample.provider Sample.without_target
           "dlwp-compute-1").
  reflexivity.
Defined.









(** ** Running the whole notebook in a fresh kernel *)









(** ** Cells run out of order *)



(** With the datastore resolved and [compute_target] not defined (the
    compute cell was skipped, or the creation was refused), the estimator
    cell stops with [NameError "compute_target"]: no descriptor is bound and
    nothing is sent, but [script_params] has been assigned. *)
Theorem estimator_needs_compute_target s d :
  Globals.ds (globals s) = Some d ->
  Globals.compute_target (globals s) = None ->
  stops_at_name cell_estimator s "compute_target" /\
  Globals.tf_est (globals (cell_estimator s).2) = Globals.tf_est (globals s)
  /\
  (Globals.script_params (globals (cell_estimator s).2) ≫=
     fun params => Some (map fst params))
    = Some ["--root-directory"; "--predictor-file"; "--model-file";
            "--log-directory"; "--temp-dir"].
Proof.
  intros Hds Hc. unfold stops_at_name.
  concrete_state s.
  repeat split; try reflexivity;
    apply issued_app; rewrite app_nil_r; reflexivity.
Qed.

Lemma estimator_needs_compute_target_witness :
  stops_at_name cell_estimator
    (cell_datastore Sample.provider Sample.without_target).2
    "compute_target".
Proof.
  apply (estimator_needs_compute_target
           (cell_datastore Sample.provider Sample.without_target).2
           Sample.datastore);
    reflexivity.
Defined.

(** ** Paths of the job descriptor *)

Lemma os_path_join_relative (a b : string) :
  a <> "" -> starts_with_sep b = false ->
  os_path_join a b = a ++ (if ends_with_sep a then "" else "/") ++ b.
Proof.
  intros Ha Hb. unfold os_path_join. rewrite Hb.
  rewrite bool_decide_eq_false_2 by assumption.
  destruct (ends_with_sep a); reflexivity.
Qed.

(** The estimator cell takes both paths of the descriptor from the working
    directory of the kernel: the source directory is its parent, written
    [cwd/..], and the entry script is [cwd/train_tf.py], a file of the
    working directory itself; a separator is added unless the working
    directory already ends with one. *)
Theorem estimator_paths s d c :
  Globals.ds (globals s) = Some d ->
  Globals.compute_target (globals s) = Some c ->
  cwd s <> "" ->
  let sep := if ends_with_sep (cwd s) then "" else "/" in
  exists est,
    (cell_estimator s).1 = Ok tt /\
    Globals.tf_est (globals (cell_estimator s).2) = Some est /\
    source_directory est = cwd s ++ sep ++ ".." /\
    entry_script est = cwd s ++ sep ++ "train_tf.py".
Proof.
  intros Hds Hc Hcwd sep. subst sep. concrete_state s. cbn in Hcwd.
  eexists. split; [reflexivity|]. split; [reflexivity|].
  cbn [source_directory entry_script]. unfold os_pardir.
  rewrite !os_path_join_relative by (assumption || reflexivity).
  split; reflexivity.
Qed.

Lemma estimator_paths_witness :
  exists est,
    (cell_estimator Sample.ready).1 = Ok tt /\
    Globals.tf_est (globals (cell_estimator Sample.ready).2) = Some est /\
    source_directory est = "/home/user/DLWP/Azure/.." /\
    entry_script est = "/home/user/DLWP/Azure/train_tf.py".
Proof.
  apply (estimator_paths Sample.ready Sample.datastore Sample.cluster);
    [reflexivity | reflexivity | discriminate].
Defined.

(** ** Witnesses for the lemmas on reruns and on the environment *)


